(** * famfin-back: the request handlers of [main.py] over a relational store

    A shallow embedding of the FastAPI handlers of [main.py].  Python floats
    are IEEE binary64 numbers and are modelled by Rocq's primitive floats;
    Python integers by [Z]; a table is the list of its rows in scan order; a
    Python dict whose key order is immaterial is a [gmap].

    The handlers are modelled up to the value they return (or the exception
    they raise) and the rows they have committed.  What the database engine
    checks on its own (the foreign keys and unique indexes declared on the
    columns, whose DDL is not part of the sources) is outside the handlers
    and is not modelled; the existence checks the handlers make themselves
    are. *)

From Stdlib Require Import ZArith List String Ascii Bool Floats Lia.
From stdpp Require Import base option strings gmap.
Import ListNotations.

#[local] Open Scope string_scope.
#[local] Open Scope list_scope.
#[local] Open Scope Z_scope.

(** ** Python values and floats *)

(** [bool(x)] for a float: every float but [0.0] and [-0.0] is true. *)
Definition truthy (x : float) : bool := negb (PrimFloat.eqb x 0%float).

(** [x < 0] for a float. *)
Definition negative (x : float) : bool := PrimFloat.ltb x 0%float.

(** [sum(values)]: Python starts from the integer 0 and adds from the left;
    [0 + x] for a float [x] is the float addition [0.0 + x]. *)
Definition py_sum (values : list float) : float :=
  fold_left PrimFloat.add values 0%float.

(** [value or default] where [value] is a float or [None]. *)
Definition py_or (value : option float) (default : float) : float :=
  match value with
  | Some x => if truthy x then x else default
  | None => default
  end.

(** SQL [SUM] over a column: NULL over no row, else the values added up in
    scan order. *)
Definition sql_sum (values : list float) : option float :=
  match values with
  | [] => None
  | x :: rest => Some (fold_left PrimFloat.add rest x)
  end.

(** [float(n)] for an integer: the nearest binary64 number, ties to even.
    (Python raises OverflowError past the float range; the integers that
    reach it here are 32-bit keys.) *)
Definition float_of_int (n : Z) : float :=
  SF2Prim (binary_normalize prec emax n 0 false).

(** The values found in an instance [__dict__] of the budget table. *)
Inductive pyval : Type :=
  | PNone
  | PInt (n : Z)
  | PFloat (x : float).

(** [str.lower] on ASCII text. *)
Definition lower_ascii (c : ascii) : ascii :=
  let n := nat_of_ascii c in
  if (Nat.leb 65 n && Nat.leb n 90)%bool then ascii_of_nat (n + 32) else c.

Fixpoint lower (s : string) : string :=
  match s with
  | EmptyString => EmptyString
  | String c rest => String (lower_ascii c) (lower rest)
  end.

(** ** datetime.date *)

Record date : Type := Date { year : Z; month : Z; day : Z }.

Definition MINYEAR : Z := 1.
Definition MAXYEAR : Z := 9999.

Definition is_leap (y : Z) : bool :=
  (y mod 4 =? 0) && (negb (y mod 100 =? 0) || (y mod 400 =? 0)).

Definition days_in_month (y m : Z) : Z :=
  if m =? 2 then (if is_leap y then 29 else 28)
  else if (m =? 4) || (m =? 6) || (m =? 9) || (m =? 11) then 30
  else 31.

(** The check of the [date(year, month, day)] constructor. *)
Definition valid_date (d : date) : bool :=
  (MINYEAR <=? year d) && (year d <=? MAXYEAR)
  && (1 <=? month d) && (month d <=? 12)
  && (1 <=? day d) && (day d <=? days_in_month (year d) (month d)).

(** [date(y, m, d)]: [None] stands for the ValueError it raises. *)
Definition py_date (y m d : Z) : option date :=
  let r := Date y m d in
  if valid_date r then Some r else None.

(** Dates compare as the triples (year, month, day). *)
Definition date_ltb (a b : date) : bool :=
  (year a <? year b)
  || ((year a =? year b)
      && ((month a <? month b)
          || ((month a =? month b) && (day a <? day b)))).

Definition date_leb (a b : date) : bool := negb (date_ltb b a).

(** ** The tables (SQLAlchemy models) *)

Module User.
Record t : Type := mk {
  id : Z;
  username : string;
  email : string;
  password : string;
  account_balance : float
}.

Definition set_account_balance (u : t) (b : float) : t :=
  mk (id u) (username u) (email u) (password u) b.
End User.

Module Expensecategory.
Record t : Type := mk {
  id : Z;
  name : string;
  user_id : option Z
}.
End Expensecategory.

Module Expense.
Record t : Type := mk {
  id : Z;
  amount : float;
  category : string;
  date : date;
  user_id : Z
}.
End Expense.

Module BudgetAllocationTable.
Record t : Type := mk {
  id : Z;
  user_id : Z;
  groceries : option float;
  fuel : option float;
  bills : option float;
  travel : option float;
  apparel : option float;
  utilities : option float;
  other : option float
}.

(** [setattr(row, name, value)] for a column name; any other name is an
    attribute outside the table. *)
Definition setattr (r : t) (name : string) (v : option float) : t :=
  if String.eqb name "groceries" then
    mk (id r) (user_id r) v (fuel r) (bills r) (travel r) (apparel r) (utilities r) (other r)
  else if String.eqb name "fuel" then
    mk (id r) (user_id r) (groceries r) v (bills r) (travel r) (apparel r) (utilities r) (other r)
  else if String.eqb name "bills" then
    mk (id r) (user_id r) (groceries r) (fuel r) v (travel r) (apparel r) (utilities r) (other r)
  else if String.eqb name "travel" then
    mk (id r) (user_id r) (groceries r) (fuel r) (bills r) v (apparel r) (utilities r) (other r)
  else if String.eqb name "apparel" then
    mk (id r) (user_id r) (groceries r) (fuel r) (bills r) (travel r) v (utilities r) (other r)
  else if String.eqb name "utilities" then
    mk (id r) (user_id r) (groceries r) (fuel r) (bills r) (travel r) (apparel r) v (other r)
  else if String.eqb name "other" then
    mk (id r) (user_id r) (groceries r) (fuel r) (bills r) (travel r) (apparel r) (utilities r) v
  else r.

(** The category columns of [r] taken from [a]. *)
Definition set_columns (r a : t) : t :=
  mk (id r) (user_id r) (groceries a) (fuel a) (bills a) (travel a)
     (apparel a) (utilities a) (other a).

(** The category columns, by name. *)
Definition columns (r : t) : list (string * option float) :=
  [("groceries", groceries r); ("fuel", fuel r); ("bills", bills r);
   ("travel", travel r); ("apparel", apparel r);
   ("utilities", utilities r); ("other", other r)].

(** [Column(Float, default=0.0)]: on INSERT a column left at [None] takes
    its default. *)
Definition column_default (v : option float) : option float :=
  match v with
  | Some x => Some x
  | None => Some 0%float
  end.

Definition with_defaults (r : t) : t :=
  mk (id r) (user_id r)
     (column_default (groceries r)) (column_default (fuel r))
     (column_default (bills r)) (column_default (travel r))
     (column_default (apparel r)) (column_default (utilities r))
     (column_default (other r)).

(** The instance [__dict__], once [_sa_instance_state] is popped: every
    loaded column. *)
Definition instance_dict (r : t) : gmap string pyval :=
  let cell (v : option float) :=
    match v with Some x => PFloat x | None => PNone end in
  list_to_map
    ([("id", PInt (id r)); ("user_id", PInt (user_id r))]
     ++ map (fun kv => (fst kv, cell (snd kv))) (columns r)).
End BudgetAllocationTable.

(** The database: the four tables. *)
Record Database : Type := mkDatabase {
  users : list User.t;
  expense_category : list Expensecategory.t;
  expenses : list Expense.t;
  budget_allocation : list BudgetAllocationTable.t
}.

(** The primary key the database gives a new row: larger than every key of
    the table. *)
Definition next_id (ids : list Z) : Z :=
  fold_right Z.max 0 ids + 1.

Definition with_users (db : Database) (rows : list User.t) : Database :=
  mkDatabase rows (expense_category db) (expenses db) (budget_allocation db).

Definition with_expense_category (db : Database)
    (rows : list Expensecategory.t) : Database :=
  mkDatabase (users db) rows (expenses db) (budget_allocation db).

Definition with_expenses (db : Database) (rows : list Expense.t) : Database :=
  mkDatabase (users db) (expense_category db) rows (budget_allocation db).

Definition with_budget_allocation (db : Database)
    (rows : list BudgetAllocationTable.t) : Database :=
  mkDatabase (users db) (expense_category db) (expenses db) rows.

(** ** Request and response models (pydantic) *)

Module ExpenseCreate.
Record t : Type := mk {
  groceries : float;
  fuel : float;
  bills : float;
  travel : float;
  apparel : float;
  utilities : float;
  other : float;
  date : date
}.

(** [__fields__.keys()], in declaration order. *)
Definition fields : list string :=
  ["groceries"; "fuel"; "bills"; "travel"; "apparel"; "utilities"; "other";
   "date"].

(** [getattr(expense, name)] for the name of an amount ([date] is filtered
    out before the handler reads an attribute). *)
Definition getattr (e : t) (name : string) : float :=
  if String.eqb name "groceries" then groceries e
  else if String.eqb name "fuel" then fuel e
  else if String.eqb name "bills" then bills e
  else if String.eqb name "travel" then travel e
  else if String.eqb name "apparel" then apparel e
  else if String.eqb name "utilities" then utilities e
  else if String.eqb name "other" then other e
  else 0%float.
End ExpenseCreate.

Module BudgetAllocation.
Record t : Type := mk {
  groceries : option float;
  fuel : option float;
  bills : option float;
  travel : option float;
  apparel : option float;
  utilities : option float;
  other : option float
}.

(** [budget.dict()], in declaration order. *)
Definition dict (b : t) : list (string * option float) :=
  [("groceries", groceries b); ("fuel", fuel b); ("bills", bills b);
   ("travel", travel b); ("apparel", apparel b);
   ("utilities", utilities b); ("other", other b)].
End BudgetAllocation.

Module ExpenseCategoryResponse.
Record t : Type := mk {
  id : Z;
  name : string;
  user_id : Z
}.

(** The constructor validates its arguments: [user_id: int] refuses
    [None]. *)
Definition make (id : Z) (name : string) (user_id : option Z) : option t :=
  match user_id with
  | Some u => Some (mk id name u)
  | None => None
  end.
End ExpenseCategoryResponse.

Record MonthlyExpenses : Type := mkMonthlyExpenses {
  total_expense : float;
  categories : gmap string float
}.

Record BudgetStatusResponse : Type := mkBudgetStatusResponse {
  total_allocated : gmap string pyval
}.

(** What a handler does: it returns a value, raises an [HTTPException], or
    lets another exception escape (which the framework answers with 500). *)
Inductive outcome (A : Type) : Type :=
  | Returned (a : A)
  | HTTPException (status_code : Z) (detail : string)
  | Unhandled (exception : string).

Arguments Returned {A} a.
Arguments HTTPException {A} status_code detail.
Arguments Unhandled {A} exception.

(** ** Queries *)

(** [db.query(User).filter(User.id == user_id).first()] *)
Definition query_user (user_id : Z) (db : Database) : option User.t :=
  find (fun u => User.id u =? user_id) (users db).

(** [db.query(BudgetAllocationTable).filter(BudgetAllocationTable.user_id == user_id)] *)
Definition allocations_of (user_id : Z) (db : Database)
    : list BudgetAllocationTable.t :=
  List.filter (fun r => BudgetAllocationTable.user_id r =? user_id)
    (budget_allocation db).

(** [Expensecategory.user_id == user_id, Expensecategory.name == category_name];
    a NULL owner equals no integer. *)
Definition category_matches (user_id : Z) (category_name : string)
    (c : Expensecategory.t) : bool :=
  match Expensecategory.user_id c with
  | Some u => (u =? user_id) && String.eqb (Expensecategory.name c) category_name
  | None => false
  end.

Definition categories_matching (user_id : Z) (category_name : string)
    (db : Database) : list Expensecategory.t :=
  List.filter (category_matches user_id category_name) (expense_category db).

(** [SELECT category, sum(amount) ... GROUP BY category], read into a dict. *)
Definition sum_by_category (rows : list Expense.t) : gmap string float :=
  fold_left
    (fun acc e =>
       <[Expense.category e :=
           match acc !! Expense.category e with
           | Some s => PrimFloat.add s (Expense.amount e)
           | None => Expense.amount e
           end]> acc)
    rows ∅.

(** The UPDATE a commit issues for a changed instance: the changed columns,
    by primary key. *)
Definition update_account_balance (pk : Z) (balance : float)
    (rows : list User.t) : list User.t :=
  map (fun r => if User.id r =? pk then User.set_account_balance r balance else r)
    rows.

Definition update_allocation (a : BudgetAllocationTable.t)
    (rows : list BudgetAllocationTable.t) : list BudgetAllocationTable.t :=
  map (fun r =>
         if BudgetAllocationTable.id r =? BudgetAllocationTable.id a
         then BudgetAllocationTable.set_columns r a else r) rows.

(** ** The handlers *)

Section Handlers.

(** [json.dumps] of the breakdown, and the text of pydantic's
    ValidationError: library output the handlers only pass along. *)
Variable json_dumps : list (string * float) -> string.
Variable validation_error : string.

(** POST /budgets/ *)
Definition allocate_budget (budget : BudgetAllocation.t) (user_id : Z)
    (db : Database) : outcome BudgetAllocationTable.t * Database :=
  if existsb
       (fun value : option float =>
          match value with
          | Some x => truthy x && negative x
          | None => false
          end)
       (map snd (BudgetAllocation.dict budget))
  then (HTTPException 400 "Budget values cannot be negative", db)
  else
    let budget_dict_lower :=
      map (fun kv => (lower (fst kv), snd kv)) (BudgetAllocation.dict budget) in
    match head (allocations_of user_id db) with
    | None =>
        let fresh :=
          BudgetAllocationTable.mk
            (next_id (map BudgetAllocationTable.id (budget_allocation db)))
            user_id None None None None None None None in
        let budget_allocation' :=
          BudgetAllocationTable.with_defaults
            (fold_left
               (fun r kv => BudgetAllocationTable.setattr r (fst kv) (snd kv))
               budget_dict_lower fresh) in
        (Returned budget_allocation',
         with_budget_allocation db
           (budget_allocation db ++ [budget_allocation']))
    | Some existing =>
        let budget_allocation' :=
          fold_left
            (fun r kv => BudgetAllocationTable.setattr r (fst kv) (snd kv))
            budget_dict_lower existing in
        (Returned budget_allocation',
         with_budget_allocation db
           (update_allocation budget_allocation' (budget_allocation db)))
    end.

(** POST /expenses/ *)
Definition create_expense (expense : ExpenseCreate.t) (user_id : Z)
    (db : Database) : outcome Expense.t * Database :=
  let names :=
    List.filter (fun category_name => negb (String.eqb category_name "date"))
      ExpenseCreate.fields in
  let db_expense :=
    Expense.mk
      (next_id (map Expense.id (expenses db)))
      (py_sum (map (ExpenseCreate.getattr expense) names))
      (json_dumps
         (map (fun category_name =>
                 (category_name, ExpenseCreate.getattr expense category_name))
              names))
      (ExpenseCreate.date expense)
      user_id in
  (* db.add(db_expense); db.commit(); db.refresh(db_expense) *)
  let db1 := with_expenses db (expenses db ++ [db_expense]) in
  match query_user user_id db1 with
  | None => (HTTPException 404 "User not found", db1)
  | Some user =>
      let account_balance :=
        PrimFloat.sub (User.account_balance user) (Expense.amount db_expense) in
      (* db.commit() *)
      (Returned db_expense,
       with_users db1
         (update_account_balance (User.id user) account_balance (users db1)))
  end.

(** GET /expenses/monthly/{user_id}/{month}/{year} *)
Definition calculate_monthly_expenses (user_id month year : Z)
    (db : Database) : outcome MonthlyExpenses :=
  match py_date year month 1 with
  | None => Unhandled "ValueError"
  | Some start_date =>
      match (if month <? 12 then py_date year (month + 1) 1
             else py_date (year + 1) 1 1) with
      | None => Unhandled "ValueError"
      | Some end_date =>
          let rows :=
            List.filter
              (fun e =>
                 date_leb start_date (Expense.date e)
                 && date_ltb (Expense.date e) end_date
                 && (Expense.user_id e =? user_id))
              (expenses db) in
          let total_expense :=
            py_or (sql_sum (map Expense.amount rows)) 0%float in
          let category_expenses_dict := sum_by_category rows in
          Returned (mkMonthlyExpenses total_expense category_expenses_dict)
      end
  end.

(** [a - b] where [a] comes out of an instance dict: [None - b] is a
    TypeError. *)
Definition py_sub (a : pyval) (b : float) : option float :=
  match a with
  | PNone => None
  | PInt n => Some (PrimFloat.sub (float_of_int n) b)
  | PFloat x => Some (PrimFloat.sub x b)
  end.

(** The dict comprehension of [remaining_budget]. *)
Definition remaining_budget (total_allocated : gmap string pyval)
    (total_expenses_dict : gmap string float) : option (gmap string float) :=
  list_to_map <$>
    mapM (fun kv : string * pyval =>
            pair (fst kv) <$>
              py_sub (snd kv)
                (default 0%float (total_expenses_dict !! fst kv)))
         (map_to_list total_allocated).

(** GET /budgets/status/{user_id} *)
Definition get_budget_status (user_id : Z) (db : Database)
    : outcome BudgetStatusResponse :=
  match head (allocations_of user_id db) with
  | None => HTTPException 404 "Budget allocation not found"
  | Some budget_allocation =>
      let total_allocated :=
        BudgetAllocationTable.instance_dict budget_allocation in
      let total_expenses_dict :=
        sum_by_category
          (List.filter (fun e => Expense.user_id e =? user_id) (expenses db)) in
      match remaining_budget total_allocated total_expenses_dict with
      | None => Unhandled "TypeError"
      | Some _ => Returned (mkBudgetStatusResponse total_allocated)
      end
  end.

(** POST /expenses/categories/{user_id}/add *)
Definition add_category (user_id : Z) (category_name : string)
    (db : Database) : outcome string * Database :=
  match head (categories_matching user_id category_name db) with
  | Some _ => (Returned "Category already exists", db)
  | None =>
      let new_category :=
        Expensecategory.mk
          (next_id (map Expensecategory.id (expense_category db)))
          category_name (Some user_id) in
      (Returned "Category added successfully",
       with_expense_category db (expense_category db ++ [new_category]))
  end.

(** GET /expenses/categories/{user_id} *)
Definition get_user_categories (user_id : Z) (db : Database)
    : outcome (list ExpenseCategoryResponse.t) :=
  let predefined_categories :=
    List.filter
      (fun c =>
         match Expensecategory.user_id c with
         | Some _ => false
         | None => true
         end)
      (expense_category db) in
  let user_categories :=
    List.filter
      (fun c =>
         match Expensecategory.user_id c with
         | Some u => u =? user_id
         | None => false
         end)
      (expense_category db) in
  let all_categories := (predefined_categories ++ user_categories)%list in
  match mapM (fun category =>
                ExpenseCategoryResponse.make
                  (Expensecategory.id category)
                  (Expensecategory.name category)
                  (Expensecategory.user_id category))
             all_categories with
  | Some response_categories => Returned response_categories
  | None =>
      HTTPException 500
        ("Error fetching categories: " ++ validation_error)%string
  end.

(** POST /balance/ *)
Definition update_balance (new_amount : float) (user_id : Z)
    (db : Database) : outcome User.t * Database :=
  match query_user user_id db with
  | None => (HTTPException 404 "User not found", db)
  | Some user =>
      let account_balance :=
        PrimFloat.add (User.account_balance user) new_amount in
      (* db.commit(); db.refresh(user) *)
      (Returned (User.set_account_balance user account_balance),
       with_users db
         (update_account_balance (User.id user) account_balance (users db)))
  end.

(** GET /balance/{user_id} *)
Definition get_balance (user_id : Z) (db : Database) : outcome float :=
  match query_user user_id db with
  | None => HTTPException 404 "User not found"
  | Some user => Returned (User.account_balance user)
  end.

End Handlers.

(** ** Accounts and tokens *)

Module UserCreate.
Record t : Type := mk {
  username : string;
  email : string;
  password : string
}.
End UserCreate.

Module UserLogin.
Record t : Type := mk {
  email : string;
  password : string
}.
End UserLogin.

(** A claim of a token: text, or a point in time ([datetime], counted in
    microseconds). *)
Inductive claim : Type :=
  | ClaimStr (s : string)
  | ClaimTime (t : Z).

(** The answer of a login. *)
Record Token : Type := mkToken {
  access_token : string;
  token_type : string
}.

(** [timedelta(minutes=n)], in microseconds. *)
Definition minutes (n : Z) : Z := n * 60 * 1000000.

Definition ACCESS_TOKEN_EXPIRE_MINUTES : Z := 60.

Section Accounts.

(** [pwd_context.hash], [pwd_context.verify] (plain, then hashed) and
    [jwt.encode], [jwt.decode] under the configured secret and algorithm
    ([None] for a JWTError): library calls the handlers pass through. *)
Variable pwd_hash : string -> string.
Variable pwd_verify : string -> string -> bool.
Variable jwt_encode : gmap string claim -> string.
Variable jwt_decode : string -> option (gmap string claim).

Definition verify_password (plain_password hashed_password : string) : bool :=
  pwd_verify plain_password hashed_password.

Definition get_password_hash (password : string) : string :=
  pwd_hash password.

(** POST /register/ *)
Definition register_user (user : UserCreate.t) (db : Database)
    : outcome User.t * Database :=
  let hashed_password := pwd_hash (UserCreate.password user) in
  let db_user :=
    User.mk (next_id (map User.id (users db)))
      (UserCreate.username user) (UserCreate.email user) hashed_password
      0%float in
  (* db.add(db_user); db.commit(); db.refresh(db_user) *)
  (Returned db_user, with_users db (users db ++ [db_user])).

(** [create_access_token(data, expires_delta)] at the time [utcnow]; a
    zero [timedelta] is false as a condition, like [None]. *)
Definition create_access_token (data : gmap string claim)
    (expires_delta : option Z) (utcnow : Z) : string :=
  let to_encode := data in
  let expire :=
    match expires_delta with
    | Some delta => if delta =? 0 then utcnow + minutes 15 else utcnow + delta
    | None => utcnow + minutes 15
    end in
  jwt_encode (<["exp" := ClaimTime expire]> to_encode).

(** POST /login/ *)
Definition login_user (user : UserLogin.t) (utcnow : Z) (db : Database)
    : outcome Token :=
  match find (fun u => String.eqb (User.email u) (UserLogin.email user))
             (users db) with
  | None => HTTPException 401 "Incorrect username or password"
  | Some db_user =>
      if negb (verify_password (UserLogin.password user) (User.password db_user))
      then HTTPException 401 "Incorrect username or password"
      else
        let access_token_expires := minutes 60 in
        let access_token :=
          create_access_token {["sub" := ClaimStr (UserLogin.email user)]}
            (Some access_token_expires) utcnow in
        Returned (mkToken access_token "bearer")
  end.

(** [decode_token]: the subject of a token, [None] when the token does not
    decode or carries no subject. *)
Definition decode_token (token : string) : option claim :=
  match jwt_decode token with
  | Some payload => payload !! "sub"
  | None => None
  end.

(** [get_current_user]: it raises 401 for a token without subject and
    otherwise falls off its end, returning [None]. *)
Definition get_current_user (token : string) : outcome unit :=
  match decode_token token with
  | None => HTTPException 401 "Could not validate credentials"
  | Some _ => Returned tt
  end.

End Accounts.

(** ** Vocabulary of the statements *)

(** The sum of the seven sub-amounts, as Python's [sum] adds them. *)
Definition total_of (e : ExpenseCreate.t) : float :=
  (0 + ExpenseCreate.groceries e + ExpenseCreate.fuel e
   + ExpenseCreate.bills e + ExpenseCreate.travel e
   + ExpenseCreate.apparel e + ExpenseCreate.utilities e
   + ExpenseCreate.other e)%float.

(** The columns of a user row other than the balance. *)
Definition identity_of (u : User.t) : Z * string * string * string :=
  (User.id u, User.username u, User.email u, User.password u).

(** A column as it shows in the instance dict. *)
Definition cell (v : option float) : pyval :=
  match v with
  | Some x => PFloat x
  | None => PNone
  end.

(** The first day of the month after month [m] of year [y]. *)
Definition first_of_next_month (y m : Z) : date :=
  if m <? 12 then Date y (m + 1) 1 else Date (y + 1) 1 1.

(** The date lies in month [m] of year [y]. *)
Definition in_month (y m : Z) (d : date) : bool :=
  (year d =? y) && (month d =? m).


(** The requests that write the store. *)
Inductive request : Type :=
  | AllocateBudget (budget : BudgetAllocation.t) (user_id : Z)
  | CreateExpense (expense : ExpenseCreate.t) (user_id : Z)
  | AddCategory (user_id : Z) (category_name : string)
  | UpdateBalance (new_amount : float) (user_id : Z).

(** The store one request leaves, and the store a sequence of requests
    served one after the other leaves. *)
Definition serve (json_dumps : list (string * float) -> string)
    (rq : request) (db : Database) : Database :=
  match rq with
  | AllocateBudget budget user_id => snd (allocate_budget budget user_id db)
  | CreateExpense expense user_id =>
      snd (create_expense json_dumps expense user_id db)
  | AddCategory user_id category_name =>
      snd (add_category user_id category_name db)
  | UpdateBalance new_amount user_id =>
      snd (update_balance new_amount user_id db)
  end.

Definition serve_all (json_dumps : list (string * float) -> string)
    (rqs : list request) (db : Database) : Database :=
  fold_left (fun db rq => serve json_dumps rq db) rqs db.

(** At most one allocation row per user and one category row per pair
    (user_id, name). *)
Definition one_row_per_key (db : Database) : Prop :=
  (forall u, (length (allocations_of u db) <= 1)%nat)
  /\ (forall u n, (length (categories_matching u n db) <= 1)%nat).

(** The balance of [user_id] after one request, and after a sequence. *)
Definition balance_after (user_id : Z) (rq : request) (balance : float)
    : float :=
  match rq with
  | CreateExpense expense u =>
      if u =? user_id then (balance - total_of expense)%float else balance
  | UpdateBalance new_amount u =>
      if u =? user_id then (balance + new_amount)%float else balance
  | AllocateBudget _ _ => balance
  | AddCategory _ _ => balance
  end.

Definition ledger (user_id : Z) (rqs : list request) (balance : float)
    : float :=
  fold_left (fun b rq => balance_after user_id rq b) rqs balance.




(** The months [calculate_monthly_expenses] can build a range for. *)
Definition month_served (y m : Z) : Prop :=
  MINYEAR <= y <= MAXYEAR /\ 1 <= m <= 12 /\ (m < 12 \/ y < MAXYEAR).

(** The expenses of a user dated in a month. *)
Definition month_rows (user_id m y : Z) (db : Database) : list Expense.t :=
  List.filter
    (fun e => in_month y m (Expense.date e) && (Expense.user_id e =? user_id))
    (expenses db).

(** ** Proof automation *)

(** Case analysis on the integer comparisons of a goal. *)
Ltac bool_cases :=
  repeat match goal with
    | |- context [?a <? ?b] => destruct (Z.ltb_spec a b)
    | |- context [?a =? ?b] => destruct (Z.eqb_spec a b)
    | |- context [?a <=? ?b] => destruct (Z.leb_spec a b)
    end; simpl in *; try reflexivity; try lia.

(** ** Facts about floats and the store *)

(** A negative float is not zero, so it is true as a Python condition. *)
Lemma negative_truthy (x : float) : negative x = true -> truthy x = true.
Proof.
  unfold negative, truthy.
  rewrite FloatAxioms.ltb_spec, FloatAxioms.eqb_spec.
  unfold SFltb, SFeqb.
  destruct (SFcompare (Prim2SF x) (Prim2SF 0%float)) as [[]|]; simpl; congruence.
Qed.

Lemma query_user_id (user_id : Z) (db : Database) (u : User.t) :
  query_user user_id db = Some u -> User.id u = user_id.
Proof.
  unfold query_user. intros H.
  apply find_some in H. destruct H as [_ H]. lia.
Qed.

(** After the UPDATE the same query finds the same user, with the new
    balance. *)
Lemma find_update_account_balance (user_id : Z) (balance : float)
    (rows : list User.t) (u : User.t) :
  find (fun r => User.id r =? user_id) rows = Some u ->
  find (fun r => User.id r =? user_id)
       (update_account_balance user_id balance rows)
  = Some (User.set_account_balance u balance).
Proof.
  induction rows as [|r rest IH]; simpl; [discriminate|].
  destruct (User.id r =? user_id) eqn:Er; simpl.
  - intros [= ->]. now rewrite Er.
  - rewrite Er. exact IH.
Qed.

Lemma update_account_balance_identity (pk : Z) (balance : float)
    (rows : list User.t) :
  map identity_of (update_account_balance pk balance rows)
  = map identity_of rows.
Proof.
  unfold update_account_balance. rewrite map_map.
  apply map_ext. intros r. now destruct (User.id r =? pk).
Qed.

Lemma update_account_balance_others (pk : Z) (balance : float)
    (rows : list User.t) :
  Forall2 (fun r r' => User.id r <> pk -> r' = r)
          rows (update_account_balance pk balance rows).
Proof.
  induction rows as [|r rest IH]; simpl; constructor; auto.
  intros Hne. destruct (User.id r =? pk) eqn:E; [lia | reflexivity].
Qed.

(** [create_expense] unfolded: the row it inserts, and the two ways it
    ends. *)
Lemma create_expense_row json_dumps expense user_id db :
  exists db_expense,
    Expense.amount db_expense = total_of expense
    /\ Expense.user_id db_expense = user_id
    /\ Expense.date db_expense = ExpenseCreate.date expense
    /\ create_expense json_dumps expense user_id db =
       match query_user user_id db with
       | None =>
           (HTTPException 404 "User not found",
            with_expenses db (expenses db ++ [db_expense]))
       | Some user =>
           (Returned db_expense,
            with_users (with_expenses db (expenses db ++ [db_expense]))
              (update_account_balance (User.id user)
                 (User.account_balance user - total_of expense)%float
                 (users db)))
       end.
Proof.
  eexists. split; [|split; [|split]]; cycle 3.
  - unfold create_expense. reflexivity.
  - reflexivity.
  - reflexivity.
  - reflexivity.
Qed.

(** ** Expense recording *)





(** ** Budget allocation *)

(** C3. When some supplied amount is negative, [allocate_budget] raises
    400 "Budget values cannot be negative" and the store, hence every
    allocation row in it, is exactly as before. *)
Theorem allocate_budget_negative_rejected
    (budget : BudgetAllocation.t) (user_id : Z) (db : Database) :
  (exists name x,
      In (name, Some x) (BudgetAllocation.dict budget) /\ negative x = true) ->
  allocate_budget budget user_id db
  = (HTTPException 400 "Budget values cannot be negative", db).
Proof.
  intros (name & x & Hin & Hneg).
  unfold allocate_budget.
  replace (existsb _ _) with true; [reflexivity|].
  symmetry. apply existsb_exists.
  exists (Some x). split.
  - apply in_map_iff. exists (name, Some x). auto.
  - rewrite Hneg, (negative_truthy x Hneg). reflexivity.
Qed.

Lemma allocate_budget_negative_rejected_witness :
  let row :=
    BudgetAllocationTable.mk 1 7 (Some 50%float) (Some 20%float) None None
      None None (Some 5%float) in
  let db := mkDatabase [] [] [] [row] in
  let budget :=
    BudgetAllocation.mk (Some 30%float) (Some (-1)%float) None None None None
      None in
  allocate_budget budget 7 db
  = (HTTPException 400 "Budget values cannot be negative", db).
Proof.
  intros row db budget.
  apply allocate_budget_negative_rejected.
  exists "fuel", (-1)%float. split; [|reflexivity].
  simpl. auto.
Defined.

(** ** Balance *)

(** C10. For an existing user, [update_balance] writes only the balance of
    that user, the old balance plus [new_amount]: id, username, email and
    password hash of every user row are as before, the rows of other users
    are untouched, and so are the other tables. *)
Theorem update_balance_only_balance
    (new_amount : float) (user_id : Z) (db : Database) (user : User.t) :
  query_user user_id db = Some user ->
  exists user' db',
    update_balance new_amount user_id db = (Returned user', db')
    /\ query_user user_id db' = Some user'
    /\ User.account_balance user'
       = (User.account_balance user + new_amount)%float
    /\ User.id user' = User.id user
    /\ User.username user' = User.username user
    /\ User.email user' = User.email user
    /\ User.password user' = User.password user
    /\ map identity_of (users db') = map identity_of (users db)
    /\ Forall2 (fun r r' => User.id r <> user_id -> r' = r) (users db) (users db')
    /\ expense_category db' = expense_category db
    /\ expenses db' = expenses db
    /\ budget_allocation db' = budget_allocation db.
Proof.
  intros Huser.
  pose proof (query_user_id _ _ _ Huser) as Hid.
  unfold update_balance. rewrite Huser.
  eexists _, _. split; [reflexivity|].
  split.
  { unfold query_user; simpl. rewrite Hid.
    now apply find_update_account_balance. }
  do 5 (split; [reflexivity|]).
  split; [apply update_account_balance_identity|].
  split; [rewrite Hid; apply update_account_balance_others|].
  repeat split.
Qed.

Lemma update_balance_only_balance_witness :
  let ann := User.mk 1 "ann" "ann@example.org" "$2b$12$hash" 100%float in
  let bob := User.mk 2 "bob" "bob@example.org" "$2b$12$other" 7%float in
  let db := mkDatabase [ann; bob] [] [] [] in
  query_user 2 db = Some bob
  /\ exists user' db',
       update_balance 2.5%float 2 db = (Returned user', db')
       /\ user' = User.mk 2 "bob" "bob@example.org" "$2b$12$other" 9.5%float
       /\ users db' = [ann; user'].
Proof.
  intros ann bob db.
  split; [reflexivity|].
  destruct (update_balance_only_balance 2.5%float 2 db bob eq_refl)
    as (user' & db' & Hrun & _).
  exists user', db'. split; [exact Hrun|].
  vm_compute in Hrun. injection Hrun as <- <-. split; reflexivity.
Defined.

(** ** Category listing *)

(** One predefined category (NULL owner) makes the listing fail: building
    its [ExpenseCategoryResponse] raises, and the handler turns that into
    a 500. *)
Lemma get_user_categories_predefined_fails
    (validation_error : string) (user_id : Z) (db : Database)
    (c : Expensecategory.t) :
  In c (expense_category db) ->
  Expensecategory.user_id c = None ->
  get_user_categories validation_error user_id db
  = HTTPException 500 ("Error fetching categories: " ++ validation_error)%string.
Proof.
  intros Hin Hnull. unfold get_user_categories.
  rewrite (mapM_None_2 _ _); [reflexivity|].
  apply List.Exists_exists. exists c. split.
  - apply in_or_app. left. apply filter_In. split; [exact Hin|].
    now rewrite Hnull.
  - now rewrite Hnull.
Qed.

(** Without predefined categories the listing returns the categories the
    user owns, each as {id, name, user_id}. *)
Lemma get_user_categories_owned
    (validation_error : string) (user_id : Z) (db : Database) :
  (forall c, In c (expense_category db) -> Expensecategory.user_id c <> None) ->
  get_user_categories validation_error user_id db
  = Returned
      (map (fun c =>
              ExpenseCategoryResponse.mk (Expensecategory.id c)
                (Expensecategory.name c) user_id)
           (List.filter
              (fun c =>
                 match Expensecategory.user_id c with
                 | Some u => u =? user_id
                 | None => false
                 end)
              (expense_category db))).
Proof.
  intros Howned. unfold get_user_categories.
  induction (expense_category db) as [|c rest IH]; [reflexivity|].
  assert (Hrest : forall c', In c' rest -> Expensecategory.user_id c' <> None)
    by (intros c' Hc'; apply Howned; now right).
  specialize (IH Hrest).
  destruct (Expensecategory.user_id c) as [u|] eqn:Hc;
    [|exfalso; apply (Howned c); [now left | exact Hc]].
  simpl. rewrite Hc.
  destruct (u =? user_id) eqn:Eu.
  - destruct (List.filter _ rest) as [|p ps] eqn:Hpre in IH |- *.
    + simpl in *. rewrite Hc. simpl.
      destruct (mapM _ _) as [l|]; [|discriminate].
      injection IH as ->. simpl. repeat f_equal. lia.
    + exfalso. assert (Hp : In p (List.filter
        (fun c0 => match Expensecategory.user_id c0 with
                   | Some _ => false | None => true end) rest))
        by (rewrite Hpre; now left).
      apply filter_In in Hp. destruct Hp as [Hp1 Hp2].
      specialize (Hrest p Hp1). destruct (Expensecategory.user_id p); congruence.
  - exact IH.
Qed.

(** C4. The listing of user 1 over a store with a predefined category
    "Groceries" and a category "Gym" of user 1 is not the two categories: the
    handler raises a 500. *)
Theorem get_user_categories_with_predefined (validation_error : string) :
  get_user_categories validation_error 1
    (mkDatabase []
       [Expensecategory.mk 1 "Groceries" None;
        Expensecategory.mk 2 "Gym" (Some 1)]
       [] [])
  = HTTPException 500 ("Error fetching categories: " ++ validation_error)%string.
Proof. reflexivity. Qed.

(** ** Budget status *)

Lemma instance_dict_cells (r : BudgetAllocationTable.t) :
  BudgetAllocationTable.instance_dict r
  = list_to_map
      [("id", PInt (BudgetAllocationTable.id r));
       ("user_id", PInt (BudgetAllocationTable.user_id r));
       ("groceries", cell (BudgetAllocationTable.groceries r));
       ("fuel", cell (BudgetAllocationTable.fuel r));
       ("bills", cell (BudgetAllocationTable.bills r));
       ("travel", cell (BudgetAllocationTable.travel r));
       ("apparel", cell (BudgetAllocationTable.apparel r));
       ("utilities", cell (BudgetAllocationTable.utilities r));
       ("other", cell (BudgetAllocationTable.other r))].
Proof. reflexivity. Qed.

(** The subtraction of [remaining_budget] goes through when no column is
    NULL. *)
Lemma remaining_budget_defined (r : BudgetAllocationTable.t)
    (total_expenses_dict : gmap string float) :
  Forall (fun kv => snd kv <> None) (BudgetAllocationTable.columns r) ->
  is_Some (remaining_budget (BudgetAllocationTable.instance_dict r)
             total_expenses_dict).
Proof.
  intros Hcols. unfold remaining_budget.
  apply fmap_is_Some, mapM_is_Some_2.
  apply List.Forall_forall. intros [k v] Hin. simpl.
  apply fmap_is_Some.
  apply list_elem_of_In, elem_of_map_to_list in Hin.
  rewrite instance_dict_cells in Hin.
  apply elem_of_list_to_map_2, list_elem_of_In in Hin.
  assert (Hv : v <> PNone).
  { rewrite List.Forall_forall in Hcols.
    simpl in Hin.
    repeat (destruct Hin as [[= <- <-]|Hin]; [try discriminate|]);
      try contradiction.
    all: match goal with
         | |- cell ?c <> PNone =>
             destruct c eqn:E; [discriminate|];
             exfalso; eapply (Hcols (_, None)); [|reflexivity];
             unfold BudgetAllocationTable.columns; rewrite E; simpl; tauto
         end. }
  destruct v; [contradiction| |]; simpl; eauto.
Qed.

(** C5 as the code has it. [get_budget_status] raises 404 when the user has
    no allocation row; otherwise, when no category column of the row is NULL,
    [total_allocated] is the whole row: its [id] and [user_id] next to the
    seven category columns with their stored values.  The response has no
    other field and the dict no other key, so the remaining budget is not
    part of it. *)
Theorem get_budget_status_whole_row (user_id : Z) (db : Database) :
  (forall row,
      head (allocations_of user_id db) = Some row ->
      Forall (fun kv => snd kv <> None) (BudgetAllocationTable.columns row)) ->
  get_budget_status user_id db
  = match head (allocations_of user_id db) with
    | None => HTTPException 404 "Budget allocation not found"
    | Some row =>
        Returned
          (mkBudgetStatusResponse
             (list_to_map
                [("id", PInt (BudgetAllocationTable.id row));
                 ("user_id", PInt (BudgetAllocationTable.user_id row));
                 ("groceries", cell (BudgetAllocationTable.groceries row));
                 ("fuel", cell (BudgetAllocationTable.fuel row));
                 ("bills", cell (BudgetAllocationTable.bills row));
                 ("travel", cell (BudgetAllocationTable.travel row));
                 ("apparel", cell (BudgetAllocationTable.apparel row));
                 ("utilities", cell (BudgetAllocationTable.utilities row));
                 ("other", cell (BudgetAllocationTable.other row))]))
    end.
Proof.
  intros Hcols. unfold get_budget_status.
  destruct (head (allocations_of user_id db)) as [row|]; [|reflexivity].
  destruct (remaining_budget_defined row
              (sum_by_category
                 (List.filter (fun e => Expense.user_id e =? user_id)
                    (expenses db)))
              (Hcols row eq_refl)) as [remaining ->].
  now rewrite instance_dict_cells.
Qed.

Lemma get_budget_status_whole_row_witness :
  let row :=
    BudgetAllocationTable.mk 1 7 (Some 50%float) (Some 20%float)
      (Some 0%float) (Some 0%float) (Some 0%float) (Some 0%float)
      (Some 5%float) in
  let db := mkDatabase [] [] [] [row] in
  get_budget_status 7 db
  = Returned
      (mkBudgetStatusResponse
         (list_to_map
            [("id", PInt 1); ("user_id", PInt 7);
             ("groceries", PFloat 50); ("fuel", PFloat 20);
             ("bills", PFloat 0); ("travel", PFloat 0);
             ("apparel", PFloat 0); ("utilities", PFloat 0);
             ("other", PFloat 5)])).
Proof.
  intros row db.
  apply (get_budget_status_whole_row 7 db).
  intros row' [= <-].
  repeat constructor; discriminate.
Defined.

(** C5 as stated fails twice over.  With every column set, [total_allocated]
    also carries the keys [id] and [user_id]; with a NULL column (which
    [allocate_budget] writes when it overwrites a field with [None]) the
    subtraction of the unused remaining budget raises a TypeError. *)
Lemma get_budget_status_not_categories_only :
  let full :=
    BudgetAllocationTable.mk 1 7 (Some 50%float) (Some 20%float)
      (Some 0%float) (Some 0%float) (Some 0%float) (Some 0%float)
      (Some 5%float) in
  let partial :=
    BudgetAllocationTable.mk 1 7 (Some 50%float) None
      (Some 0%float) (Some 0%float) (Some 0%float) (Some 0%float)
      (Some 5%float) in
  (exists response,
      get_budget_status 7 (mkDatabase [] [] [] [full]) = Returned response
      /\ total_allocated response !! "id" = Some (PInt 1)
      /\ total_allocated response !! "user_id" = Some (PInt 7)
      /\ total_allocated response
         <> list_to_map
              (map (fun kv => (fst kv, cell (snd kv)))
                 (BudgetAllocationTable.columns full)))
  /\ get_budget_status 7 (mkDatabase [] [] [] [partial]) = Unhandled "TypeError".
Proof.
  intros full partial. split.
  - eexists. split; [vm_compute; reflexivity|].
    split; [reflexivity|]. split; [reflexivity|].
    intros Heq.
    apply (f_equal (fun m : gmap string pyval => m !! "id")) in Heq.
    vm_compute in Heq. discriminate.
  - vm_compute. reflexivity.
Qed.

(** ** Monthly aggregation *)

Lemma valid_date_bounds (d : date) :
  valid_date d = true ->
  MINYEAR <= year d <= MAXYEAR /\ 1 <= month d <= 12 /\ 1 <= day d.
Proof.
  unfold valid_date. intros H.
  repeat (apply andb_prop in H; destruct H as [H ?]).
  repeat match goal with
    | H : (_ <=? _) = true |- _ => apply Z.leb_le in H
    end.
  lia.
Qed.

Lemma py_date_first (y m : Z) :
  MINYEAR <= y <= MAXYEAR -> 1 <= m <= 12 -> py_date y m 1 = Some (Date y m 1).
Proof.
  intros Hy Hm. unfold py_date, valid_date, days_in_month, MINYEAR, MAXYEAR in *.
  cbn [year month day].
  destruct (is_leap y); bool_cases.
Qed.

(** A valid date is in the half-open range of a month exactly when it has
    that year and that month. *)
Lemma month_range_in_month (y m : Z) (d : date) :
  1 <= m <= 12 ->
  valid_date d = true ->
  date_leb (Date y m 1) d && date_ltb d (first_of_next_month y m)
  = in_month y m d.
Proof.
  intros Hm Hd. apply valid_date_bounds in Hd.
  destruct d as [dy dm dd]; simpl in Hd.
  unfold date_leb, date_ltb, first_of_next_month, in_month; simpl.
  destruct (Z.ltb_spec m 12); simpl; bool_cases.
Qed.

(** The request never ends in an [HTTPException]: no lookup of the user
    precedes the sums. *)
Lemma calculate_monthly_expenses_no_http_exception
    (user_id month year : Z) (db : Database) (status_code : Z)
    (detail : string) :
  calculate_monthly_expenses user_id month year db
  <> HTTPException status_code detail.
Proof.
  unfold calculate_monthly_expenses.
  destruct (py_date year month 1); [|discriminate].
  destruct (if month <? 12 then _ else _); discriminate.
Qed.

(** For a month whose successor exists the handler returns, and it sums the
    rows of the user dated in the range. *)
Lemma calculate_monthly_expenses_returns (user_id month year : Z)
    (db : Database) :
  MINYEAR <= year <= MAXYEAR ->
  1 <= month <= 12 ->
  month < 12 \/ year < MAXYEAR ->
  let rows :=
    List.filter
      (fun e =>
         date_leb (Date year month 1) (Expense.date e)
         && date_ltb (Expense.date e) (first_of_next_month year month)
         && (Expense.user_id e =? user_id))
      (expenses db) in
  calculate_monthly_expenses user_id month year db
  = Returned
      (mkMonthlyExpenses (py_or (sql_sum (map Expense.amount rows)) 0%float)
         (sum_by_category rows)).
Proof.
  intros Hy Hm Hnext rows. unfold calculate_monthly_expenses.
  rewrite (py_date_first year month Hy Hm).
  unfold rows, first_of_next_month.
  destruct (Z.ltb_spec month 12).
  - rewrite py_date_first by lia. reflexivity.
  - rewrite py_date_first by (unfold MINYEAR, MAXYEAR in *; lia). reflexivity.
Qed.



(** C9 as the code has it.  For every [user_id], existing or not, and every
    month from January of year 1 to November of year 9999 in which the user
    has no expense, [calculate_monthly_expenses] returns a total of 0.0 and
    an empty dict; it does not raise 404. *)
Theorem calculate_monthly_expenses_nothing_matching (user_id month year : Z)
    (db : Database) :
  MINYEAR <= year <= MAXYEAR ->
  1 <= month <= 12 ->
  month < 12 \/ year < MAXYEAR ->
  Forall (fun e => valid_date (Expense.date e) = true) (expenses db) ->
  (forall e,
      In e (expenses db) -> Expense.user_id e = user_id ->
      in_month year month (Expense.date e) = false) ->
  calculate_monthly_expenses user_id month year db
  = Returned (mkMonthlyExpenses 0%float ∅)
  /\ forall detail,
       calculate_monthly_expenses user_id month year db
       <> HTTPException 404 detail.
Proof.
  intros Hy Hm Hnext Hvalid Hnone.
  split; [|intros detail; apply calculate_monthly_expenses_no_http_exception].
  rewrite (calculate_monthly_expenses_returns user_id month year db Hy Hm Hnext).
  replace (List.filter _ (expenses db)) with (@nil Expense.t); [reflexivity|].
  symmetry. rewrite List.Forall_forall in Hvalid.
  induction (expenses db) as [|e rest IH]; [reflexivity|]. simpl.
  rewrite (month_range_in_month year month _ Hm (Hvalid e (or_introl eq_refl))).
  destruct (Z.eqb_spec (Expense.user_id e) user_id) as [Hu|Hu].
  - rewrite (Hnone e (or_introl eq_refl) Hu). simpl.
    apply IH; intros; [apply Hvalid | apply Hnone]; simpl; auto.
  - rewrite andb_false_r.
    apply IH; intros; [apply Hvalid | apply Hnone]; simpl; auto.
Qed.

Lemma calculate_monthly_expenses_nothing_matching_witness :
  let leap_day := Expense.mk 1 15%float "{}" (Date 2024 2 29) 1 in
  let db := mkDatabase [] [] [leap_day] [] in
  query_user 42 db = None
  /\ calculate_monthly_expenses 42 2 2024 db
     = Returned (mkMonthlyExpenses 0%float ∅)
  /\ calculate_monthly_expenses 1 12 2023 db
     = Returned (mkMonthlyExpenses 0%float ∅).
Proof.
  intros leap_day db. split; [reflexivity|]. split.
  - apply (calculate_monthly_expenses_nothing_matching 42 2 2024 db);
      try (unfold MINYEAR, MAXYEAR; lia).
    + repeat constructor.
    + intros e [<-|[]]. simpl. discriminate.
  - apply (calculate_monthly_expenses_nothing_matching 1 12 2023 db);
      try (unfold MINYEAR, MAXYEAR; lia).
    + repeat constructor.
    + intros e [<-|[]] _. reflexivity.
Defined.

(** C9 as stated fails for December 9999: the end of the range would be in
    year 10000, which [date] refuses, so the request of a month without any
    expense ends in an unhandled ValueError. *)
Lemma calculate_monthly_expenses_december_9999 :
  valid_date (Date 9999 12 1) = true
  /\ calculate_monthly_expenses 1 12 9999 (mkDatabase [] [] [] [])
     = Unhandled "ValueError"
  /\ calculate_monthly_expenses 1 12 9999 (mkDatabase [] [] [] [])
     <> Returned (mkMonthlyExpenses 0%float ∅).
Proof. split; [reflexivity|]. split; [reflexivity | discriminate]. Qed.

(** ** Category management *)

Lemma category_matches_new (user_id : Z) (category_name : string) (pk : Z) :
  category_matches user_id category_name
    (Expensecategory.mk pk category_name (Some user_id)) = true.
Proof.
  unfold category_matches; simpl.
  now rewrite Z.eqb_refl, String.eqb_refl.
Qed.

Lemma category_matches_other (user_id u : Z) (category_name n : string)
    (pk : Z) :
  (u, n) <> (user_id, category_name) ->
  category_matches u n (Expensecategory.mk pk category_name (Some user_id))
  = false.
Proof.
  intros Hne. unfold category_matches; simpl.
  destruct (Z.eqb_spec user_id u) as [->|]; [|reflexivity].
  destruct (String.eqb_spec category_name n) as [->|]; [|reflexivity].
  congruence.
Qed.

(** What a call of [add_category] leaves, by whether the pair is there. *)
Lemma add_category_present (user_id : Z) (category_name : string)
    (db : Database) (c : Expensecategory.t) (rest : list Expensecategory.t) :
  categories_matching user_id category_name db = c :: rest ->
  add_category user_id category_name db
  = (Returned "Category already exists", db).
Proof. unfold add_category. now intros ->. Qed.

Lemma add_category_absent (user_id : Z) (category_name : string)
    (db : Database) :
  categories_matching user_id category_name db = [] ->
  let new_category :=
    Expensecategory.mk (next_id (map Expensecategory.id (expense_category db)))
      category_name (Some user_id) in
  add_category user_id category_name db
  = (Returned "Category added successfully",
     with_expense_category db (expense_category db ++ [new_category]))
  /\ categories_matching user_id category_name
       (with_expense_category db (expense_category db ++ [new_category]))
     = [new_category].
Proof.
  intros Hnone new_category. split.
  - unfold add_category. now rewrite Hnone.
  - unfold categories_matching in *; simpl.
    rewrite List.filter_app, Hnone; simpl.
    unfold new_category. now rewrite category_matches_new.
Qed.

(** The pre-check keeps the pairs (user_id, name) free of duplicates. *)
Lemma add_category_keeps_pairs_unique (user_id : Z) (category_name : string)
    (db : Database) :
  (forall u n, (length (categories_matching u n db) <= 1)%nat) ->
  forall u n,
    (length (categories_matching u n
               (snd (add_category user_id category_name db))) <= 1)%nat.
Proof.
  intros Hunique u n.
  destruct (categories_matching user_id category_name db) as [|c rest] eqn:E.
  - destruct (add_category_absent user_id category_name db E) as [-> Hnew].
    cbn [snd].
    destruct (decide ((u, n) = (user_id, category_name))) as [[= -> ->]|Hne].
    + now rewrite Hnew.
    + unfold categories_matching; simpl. rewrite List.filter_app; simpl.
      rewrite (category_matches_other _ _ _ _ _ Hne), app_nil_r.
      apply Hunique.
  - rewrite (add_category_present _ _ _ _ _ E). apply Hunique.
Qed.



(** ** Budget allocation: upsert *)


(** The loop of [setattr] over the lower-cased dict writes the seven
    columns. *)
Lemma setattr_all (budget : BudgetAllocation.t) (r : BudgetAllocationTable.t) :
  fold_left (fun r kv => BudgetAllocationTable.setattr r (fst kv) (snd kv))
    (map (fun kv => (lower (fst kv), snd kv)) (BudgetAllocation.dict budget)) r
  = BudgetAllocationTable.mk
      (BudgetAllocationTable.id r) (BudgetAllocationTable.user_id r)
      (BudgetAllocation.groceries budget) (BudgetAllocation.fuel budget)
      (BudgetAllocation.bills budget) (BudgetAllocation.travel budget)
      (BudgetAllocation.apparel budget) (BudgetAllocation.utilities budget)
      (BudgetAllocation.other budget).
Proof. reflexivity. Qed.

(** The UPDATE keeps the owner of every row, so it keeps the rows of a
    user in place. *)
Lemma allocations_of_update (user_id : Z) (a : BudgetAllocationTable.t)
    (db : Database) :
  allocations_of user_id
    (with_budget_allocation db (update_allocation a (budget_allocation db)))
  = update_allocation a (allocations_of user_id db).
Proof.
  unfold allocations_of, update_allocation; simpl.
  induction (budget_allocation db) as [|r rest IH]; [reflexivity|].
  cbn [map List.filter].
  destruct (BudgetAllocationTable.id r =? BudgetAllocationTable.id a) eqn:Ei;
    cbn [BudgetAllocationTable.set_columns BudgetAllocationTable.user_id];
    destruct (BudgetAllocationTable.user_id r =? user_id);
    cbn [map]; rewrite ?Ei, IH; reflexivity.
Qed.



(** The upsert keeps at most one row per user. *)
Lemma allocate_budget_keeps_one_row (budget : BudgetAllocation.t)
    (user_id : Z) (db : Database) :
  (forall u, (length (allocations_of u db) <= 1)%nat) ->
  forall u,
    (length (allocations_of u (snd (allocate_budget budget user_id db))) <= 1)%nat.
Proof.
  intros Hone u. unfold allocate_budget.
  destruct (existsb _ _); [apply Hone|].
  destruct (head (allocations_of user_id db)) eqn:E; cbn [snd].
  - rewrite allocations_of_update. unfold update_allocation.
    rewrite length_map. apply Hone.
  - unfold allocations_of at 1; simpl. rewrite List.filter_app, length_app.
    fold (allocations_of u db). simpl.
    destruct (Z.eqb_spec user_id u) as [->|]; simpl; [|specialize (Hone u); lia].
    destruct (allocations_of u db); [simpl; lia | discriminate].
Qed.



(** ** Sequences of requests *)

Lemma create_expense_other_tables json_dumps expense user_id db :
  expense_category (snd (create_expense json_dumps expense user_id db))
  = expense_category db
  /\ budget_allocation (snd (create_expense json_dumps expense user_id db))
     = budget_allocation db.
Proof.
  destruct (create_expense_row json_dumps expense user_id db)
    as (row & _ & _ & _ & ->).
  destruct (query_user user_id db); split; reflexivity.
Qed.

Lemma update_balance_other_tables new_amount user_id db :
  expense_category (snd (update_balance new_amount user_id db))
  = expense_category db
  /\ budget_allocation (snd (update_balance new_amount user_id db))
     = budget_allocation db.
Proof.
  unfold update_balance. destruct (query_user user_id db); split; reflexivity.
Qed.

Lemma allocate_budget_expense_category budget user_id db :
  expense_category (snd (allocate_budget budget user_id db))
  = expense_category db.
Proof.
  unfold allocate_budget. destruct (existsb _ _); [reflexivity|].
  destruct (head (allocations_of user_id db)); reflexivity.
Qed.

Lemma add_category_budget_allocation user_id category_name db :
  budget_allocation (snd (add_category user_id category_name db))
  = budget_allocation db.
Proof.
  unfold add_category.
  destruct (head (categories_matching user_id category_name db)); reflexivity.
Qed.

Lemma one_row_per_key_tables (db db' : Database) :
  expense_category db' = expense_category db ->
  budget_allocation db' = budget_allocation db ->
  one_row_per_key db -> one_row_per_key db'.
Proof.
  unfold one_row_per_key, allocations_of, categories_matching.
  now intros -> ->.
Qed.

(** Every writing request keeps the keys unique, so every store reached
    from empty tables by requests served one at a time has them unique. *)
Lemma serve_one_row_per_key json_dumps (rq : request) (db : Database) :
  one_row_per_key db -> one_row_per_key (serve json_dumps rq db).
Proof.
  intros Hdb. destruct rq as [budget u|expense u|u n|amount u]; simpl.
  - split.
    + apply allocate_budget_keeps_one_row, Hdb.
    + unfold categories_matching.
      rewrite allocate_budget_expense_category. apply Hdb.
  - destruct (create_expense_other_tables json_dumps expense u db).
    now apply (one_row_per_key_tables db).
  - split.
    + unfold allocations_of.
      rewrite add_category_budget_allocation. apply Hdb.
    + apply add_category_keeps_pairs_unique, Hdb.
  - destruct (update_balance_other_tables amount u db).
    now apply (one_row_per_key_tables db).
Qed.

Lemma serve_all_one_row_per_key json_dumps (rqs : list request)
    (db : Database) :
  one_row_per_key db -> one_row_per_key (serve_all json_dumps rqs db).
Proof.
  revert db. induction rqs as [|rq rqs IH]; intros db Hdb; [exact Hdb|].
  simpl. apply IH, serve_one_row_per_key, Hdb.
Qed.

(** X5. Over allocation and category tables that start empty, after any
    sequence of requests served one at a time each user has at most one
    allocation row and each pair (user_id, name) at most one category row. *)
Lemma served_from_empty_one_row_per_key json_dumps (rqs : list request)
    (registered : list User.t) :
  one_row_per_key (serve_all json_dumps rqs (mkDatabase registered [] [] [])).
Proof.
  apply serve_all_one_row_per_key. split; intros; simpl; lia.
Qed.
(** ** The store under sequences of requests *)

Lemma next_id_fresh (ids : list Z) (x : Z) : In x ids -> x < next_id ids.
Proof.
  unfold next_id. induction ids as [|i ids IH]; simpl; [tauto|].
  intros [->|Hin]; [lia|]. specialize (IH Hin). lia.
Qed.

Lemma next_id_not_in (ids : list Z) : ~ In (next_id ids) ids.
Proof. intros Hin. apply next_id_fresh in Hin. lia. Qed.

Lemma find_update_account_balance_other (user_id pk : Z) (balance : float)
    (rows : list User.t) :
  pk <> user_id ->
  find (fun r => User.id r =? user_id) (update_account_balance pk balance rows)
  = find (fun r => User.id r =? user_id) rows.
Proof.
  intros Hne. induction rows as [|r rest IH]; [reflexivity|]. simpl.
  destruct (Z.eqb_spec (User.id r) pk) as [Hpk|Hpk]; simpl.
  - destruct (Z.eqb_spec (User.id r) user_id); [lia | exact IH].
  - destruct (User.id r =? user_id); [reflexivity | exact IH].
Qed.

Lemma set_account_balance_same (u : User.t) :
  User.set_account_balance u (User.account_balance u) = u.
Proof. now destruct u. Qed.

Lemma allocate_budget_users budget user_id db :
  users (snd (allocate_budget budget user_id db)) = users db.
Proof.
  unfold allocate_budget. destruct (existsb _ _); [reflexivity|].
  destruct (head (allocations_of user_id db)); reflexivity.
Qed.

Lemma add_category_users user_id category_name db :
  users (snd (add_category user_id category_name db)) = users db.
Proof.
  unfold add_category.
  destruct (head (categories_matching user_id category_name db)); reflexivity.
Qed.

(** One request moves the balance of an existing user as [balance_after]
    says. *)
Lemma serve_balance json_dumps (rq : request) (user_id : Z) (db : Database)
    (u : User.t) :
  query_user user_id db = Some u ->
  query_user user_id (serve json_dumps rq db)
  = Some (User.set_account_balance u
            (balance_after user_id rq (User.account_balance u))).
Proof.
  intros Hu. pose proof (query_user_id _ _ _ Hu) as Hid.
  destruct rq as [budget v|expense v|v n|amount v]; simpl.
  - unfold query_user. rewrite allocate_budget_users.
    now rewrite set_account_balance_same.
  - destruct (create_expense_row json_dumps expense v db)
      as (row & _ & _ & _ & ->).
    destruct (Z.eqb_spec v user_id) as [->|Hne].
    + rewrite Hu. unfold query_user; simpl. rewrite Hid.
      now apply find_update_account_balance.
    + rewrite set_account_balance_same.
      destruct (query_user v db) as [w|] eqn:Hw; [|exact Hu].
      unfold query_user; simpl.
      rewrite find_update_account_balance_other; [exact Hu|].
      rewrite (query_user_id _ _ _ Hw). exact Hne.
  - unfold query_user. rewrite add_category_users.
    now rewrite set_account_balance_same.
  - unfold update_balance.
    destruct (Z.eqb_spec v user_id) as [->|Hne].
    + rewrite Hu. unfold query_user; simpl. rewrite Hid.
      now apply find_update_account_balance.
    + rewrite set_account_balance_same.
      destruct (query_user v db) as [w|] eqn:Hw; [|exact Hu].
      unfold query_user; simpl.
      rewrite find_update_account_balance_other; [exact Hu|].
      rewrite (query_user_id _ _ _ Hw). exact Hne.
Qed.

(** X1. The balance [get_balance] reports for an existing user after a
    sequence of requests is the starting balance with the user's credits
    added and the totals of the user's expenses subtracted, one after the
    other in the order of the requests; the requests of other users and the
    budget and category requests do not move it. *)
Theorem get_balance_after_requests json_dumps (rqs : list request)
    (user_id : Z) (db : Database) (u : User.t) :
  query_user user_id db = Some u ->
  get_balance user_id (serve_all json_dumps rqs db)
  = Returned (ledger user_id rqs (User.account_balance u)).
Proof.
  revert db u. induction rqs as [|rq rqs IH]; intros db u Hu.
  - unfold get_balance. simpl. now rewrite Hu.
  - simpl. rewrite (IH _ _ (serve_balance json_dumps rq user_id db u Hu)).
    reflexivity.
Qed.

Lemma get_balance_after_requests_witness :
  let ann := User.mk 1 "ann" "ann@example.org" "$2b$12$hash" 100%float in
  let bob := User.mk 2 "bob" "bob@example.org" "$2b$12$other" 7%float in
  let db := mkDatabase [ann; bob] [] [] [] in
  let lunch := ExpenseCreate.mk 10 5 0 0 0 0 0 (Date 2024 2 29) in
  let rqs :=
    [CreateExpense lunch 1; UpdateBalance 2.5%float 2; AddCategory 1 "Rent";
     UpdateBalance 30%float 1; CreateExpense lunch 3] in
  get_balance 1 (serve_all (fun _ => "{}") rqs db) = Returned 115%float.
Proof.
  intros ann bob db lunch rqs.
  exact (get_balance_after_requests (fun _ => "{}") rqs 1 db ann eq_refl).
Defined.

Lemma serve_identity json_dumps (rq : request) (db : Database) :
  map identity_of (users (serve json_dumps rq db))
  = map identity_of (users db).
Proof.
  destruct rq as [budget v|expense v|v n|amount v]; simpl.
  - now rewrite allocate_budget_users.
  - destruct (create_expense_row json_dumps expense v db)
      as (row & _ & _ & _ & ->).
    destruct (query_user v db); [|reflexivity].
    apply update_account_balance_identity.
  - now rewrite add_category_users.
  - unfold update_balance. destruct (query_user v db); [|reflexivity].
    apply update_account_balance_identity.
Qed.

(** X2. No sequence of expense, budget, category and balance requests adds
    or removes a user row or changes the id, username, email or password
    hash of one: only balances move. *)
Theorem served_users_identity json_dumps (rqs : list request)
    (db : Database) :
  map identity_of (users (serve_all json_dumps rqs db))
  = map identity_of (users db).
Proof.
  revert db. induction rqs as [|rq rqs IH]; intros db; [reflexivity|].
  simpl. fold (serve_all json_dumps rqs (serve json_dumps rq db)).
  now rewrite IH, serve_identity.
Qed.

Lemma serve_expenses json_dumps (rq : request) (db : Database) :
  match rq with
  | CreateExpense expense user_id =>
      exists row,
        expenses (serve json_dumps rq db) = expenses db ++ [row]
        /\ Expense.id row = next_id (map Expense.id (expenses db))
        /\ Expense.amount row = total_of expense
        /\ Expense.user_id row = user_id
        /\ Expense.date row = ExpenseCreate.date expense
  | _ => expenses (serve json_dumps rq db) = expenses db
  end.
Proof.
  destruct rq as [budget v|expense v|v n|amount v]; simpl.
  - unfold allocate_budget. destruct (existsb _ _); [reflexivity|].
    destruct (head (allocations_of v db)); reflexivity.
  - unfold create_expense.
    destruct (query_user v _); eexists; repeat (split; [reflexivity|]);
      reflexivity.
  - unfold add_category.
    destruct (head (categories_matching v n db)); reflexivity.
  - unfold update_balance. destruct (query_user v db); reflexivity.
Qed.








(** ** Monthly aggregation, further *)



Lemma calculate_monthly_expenses_range (user_id month year : Z)
    (db : Database) :
  calculate_monthly_expenses user_id month year db
  = if valid_date (Date year month 1)
       && valid_date (first_of_next_month year month)
    then
      let rows :=
        List.filter
          (fun e =>
             date_leb (Date year month 1) (Expense.date e)
             && date_ltb (Expense.date e) (first_of_next_month year month)
             && (Expense.user_id e =? user_id))
          (expenses db) in
      Returned
        (mkMonthlyExpenses (py_or (sql_sum (map Expense.amount rows)) 0%float)
           (sum_by_category rows))
    else Unhandled "ValueError".
Proof.
  unfold calculate_monthly_expenses, first_of_next_month, py_date.
  destruct (valid_date (Date year month 1)); [|reflexivity]. simpl.
  destruct (month <? 12).
  - destruct (valid_date (Date year (month + 1) 1)); reflexivity.
  - destruct (valid_date (Date (year + 1) 1 1)); reflexivity.
Qed.

Lemma create_expense_expenses json_dumps expense user_id db :
  exists row,
    expenses (snd (create_expense json_dumps expense user_id db))
    = expenses db ++ [row]
    /\ Expense.amount row = total_of expense
    /\ Expense.user_id row = user_id
    /\ Expense.date row = ExpenseCreate.date expense.
Proof.
  destruct (serve_expenses json_dumps (CreateExpense expense user_id) db)
    as (row & Hrows & _ & Ha & Hu & Hd).
  exists row. auto.
Qed.

(** X7. Recording an expense changes the monthly summary of no other user
    and of no other month: every such request answers as before. *)
Theorem create_expense_other_summaries json_dumps
    (expense : ExpenseCreate.t) (user_id : Z) (db : Database)
    (other month year : Z) :
  valid_date (ExpenseCreate.date expense) = true ->
  other <> user_id \/ in_month year month (ExpenseCreate.date expense) = false ->
  calculate_monthly_expenses other month year
    (snd (create_expense json_dumps expense user_id db))
  = calculate_monthly_expenses other month year db.
Proof.
  intros Hvalid Hother.
  destruct (create_expense_expenses json_dumps expense user_id db)
    as (row & Hrows & _ & Hu & Hd).
  rewrite !calculate_monthly_expenses_range, Hrows.
  destruct (valid_date (Date year month 1)) eqn:Es; [|reflexivity].
  destruct (valid_date (first_of_next_month year month)); [|reflexivity].
  cbn [andb]. cbv zeta.
  rewrite List.filter_app. cbn [List.filter].
  replace (date_leb _ _ && date_ltb _ _ && (Expense.user_id row =? other))
    with false; [now rewrite app_nil_r|].
  symmetry. rewrite Hu, Hd.
  apply valid_date_bounds in Es. simpl in Es.
  rewrite month_range_in_month by (lia || assumption).
  destruct Hother as [Hne| ->]; [|reflexivity].
  destruct (Z.eqb_spec user_id other); [congruence|].
  apply andb_false_r.
Qed.

Lemma create_expense_other_summaries_witness :
  let ann := User.mk 1 "ann" "ann@example.org" "$2b$12$hash" 100%float in
  let march := Expense.mk 1 40%float "{}" (Date 2024 3 1) 1 in
  let db := mkDatabase [ann] [] [march] [] in
  let lunch := ExpenseCreate.mk 10 5 0 0 0 0 0 (Date 2024 2 29) in
  calculate_monthly_expenses 1 3 2024
    (snd (create_expense (fun _ => "{}") lunch 1 db))
  = calculate_monthly_expenses 1 3 2024 db
  /\ calculate_monthly_expenses 1 3 2024 db
     = Returned (mkMonthlyExpenses 40%float {["{}" := 40%float]}).
Proof.
  intros ann march db lunch. split; [|reflexivity].
  apply (create_expense_other_summaries (fun _ => "{}") lunch 1 db 1 3 2024);
    [reflexivity | right; reflexivity].
Defined.

(** For a served month, over valid dates, the summary is taken over the
    rows of the user dated in the month. *)
Lemma calculate_monthly_expenses_month_rows (user_id month year : Z)
    (db : Database) :
  month_served year month ->
  Forall (fun e => valid_date (Expense.date e) = true) (expenses db) ->
  calculate_monthly_expenses user_id month year db
  = Returned
      (mkMonthlyExpenses
         (py_or (sql_sum (map Expense.amount (month_rows user_id month year db)))
            0%float)
         (sum_by_category (month_rows user_id month year db))).
Proof.
  intros (Hy & Hm & Hnext) Hvalid.
  rewrite (calculate_monthly_expenses_returns user_id month year db Hy Hm Hnext).
  cbv zeta. unfold month_rows.
  rewrite List.Forall_forall in Hvalid.
  rewrite (filter_ext_in
             (fun e =>
                date_leb (Date year month 1) (Expense.date e)
                && date_ltb (Expense.date e) (first_of_next_month year month)
                && (Expense.user_id e =? user_id))
             (fun e =>
                in_month year month (Expense.date e)
                && (Expense.user_id e =? user_id))); [reflexivity|].
  intros e He. now rewrite (month_range_in_month year month _ Hm (Hvalid e He)).
Qed.



Lemma sum_by_category_keys (rows : list Expense.t) (acc : gmap string float)
    (key : string) :
  is_Some
    (fold_left
       (fun acc e =>
          <[Expense.category e :=
              match acc !! Expense.category e with
              | Some s => PrimFloat.add s (Expense.amount e)
              | None => Expense.amount e
              end]> acc)
       rows acc !! key)
  <-> is_Some (acc !! key)
      \/ exists e, In e rows /\ Expense.category e = key.
Proof.
  revert acc. induction rows as [|r rows IH]; intros acc; simpl.
  - split; [now left|]. intros [H|(e & [] & _)]. exact H.
  - rewrite IH. split.
    + intros [H|(e & He & Hk)]; [|right; exists e; auto].
      destruct (decide (Expense.category r = key)) as [Hr|Hr].
      * right. exists r. auto.
      * left. now rewrite lookup_insert_ne in H.
    + intros [H|(e & [<-|He] & Hk)].
      * left. destruct (decide (Expense.category r = key)) as [<-|Hr].
        -- rewrite lookup_insert_eq. eauto.
        -- now rewrite lookup_insert_ne.
      * left. rewrite Hk, lookup_insert_eq. eauto.
      * right. exists e. auto.
Qed.

(** X9. In the summary of a served month the per-category dict has a key
    exactly for each breakdown string carried by an expense of the user
    dated in that month. *)
Theorem calculate_monthly_expenses_keys (user_id month year : Z)
    (db : Database) (key : string) :
  month_served year month ->
  Forall (fun e => valid_date (Expense.date e) = true) (expenses db) ->
  exists response,
    calculate_monthly_expenses user_id month year db = Returned response
    /\ (is_Some (categories response !! key)
        <-> exists e,
              In e (expenses db)
              /\ Expense.user_id e = user_id
              /\ in_month year month (Expense.date e) = true
              /\ Expense.category e = key).
Proof.
  intros Hserved Hvalid.
  rewrite (calculate_monthly_expenses_month_rows _ _ _ _ Hserved Hvalid).
  eexists. split; [reflexivity|]. cbn [categories].
  unfold sum_by_category. rewrite sum_by_category_keys.
  rewrite lookup_empty. unfold month_rows. split.
  - intros [[? H]|(e & He & Hk)]; [discriminate|].
    apply filter_In in He. destruct He as [He Hm].
    apply andb_prop in Hm. destruct Hm as [Hm Hu].
    exists e. repeat split; (assumption || lia).
  - intros (e & He & Hu & Hm & Hk). right. exists e. split; [|exact Hk].
    apply filter_In. split; [exact He|].
    rewrite Hm. simpl. lia.
Qed.

Lemma calculate_monthly_expenses_keys_witness :
  let rent := Expense.mk 1 40%float "rent" (Date 2024 2 1) 1 in
  let food := Expense.mk 2 15%float "food" (Date 2024 3 1) 1 in
  let db := mkDatabase [] [] [rent; food] [] in
  exists response,
    calculate_monthly_expenses 1 2 2024 db = Returned response
    /\ is_Some (categories response !! "rent")
    /\ categories response !! "food" = None.
Proof.
  intros rent food db.
  destruct (calculate_monthly_expenses_keys 1 2 2024 db "rent")
    as (response & Hrun & Hkey).
  - unfold month_served, MINYEAR, MAXYEAR. lia.
  - repeat constructor.
  - exists response. split; [exact Hrun|]. split.
    + apply Hkey. exists rent. simpl. auto 10.
    + vm_compute in Hrun. injection Hrun as <-. reflexivity.
Defined.

(** ** Budget allocation and status, further *)










Lemma remaining_budget_some (d : gmap string pyval)
    (e1 e2 : gmap string float) :
  is_Some (remaining_budget d e1) -> is_Some (remaining_budget d e2).
Proof.
  unfold remaining_budget. rewrite !fmap_is_Some, !mapM_is_Some.
  intros H. eapply Forall_impl; [exact H|].
  intros [k v]. unfold compose. simpl. rewrite !fmap_is_Some.
  destruct v; simpl; eauto.
Qed.

(** X13. The status answer depends on the allocation table alone: two
    stores with the same allocation rows answer alike, whatever expenses
    they hold, so recording expenses never changes the status. *)
Theorem get_budget_status_ignores_expenses (user_id : Z) (db db' : Database) :
  budget_allocation db' = budget_allocation db ->
  get_budget_status user_id db' = get_budget_status user_id db.
Proof.
  intros Hsame. unfold get_budget_status, allocations_of. rewrite Hsame.
  destruct (head _) as [row|]; [|reflexivity].
  destruct (remaining_budget _ (sum_by_category
              (List.filter _ (expenses db')))) eqn:E';
    destruct (remaining_budget _ (sum_by_category
              (List.filter _ (expenses db)))) eqn:E; try reflexivity.
  - pose proof (remaining_budget_some _ _
                  (sum_by_category
                     (List.filter (fun e => Expense.user_id e =? user_id)
                        (expenses db))) (mk_is_Some _ _ E')) as [? H].
    congruence.
  - pose proof (remaining_budget_some _ _
                  (sum_by_category
                     (List.filter (fun e => Expense.user_id e =? user_id)
                        (expenses db'))) (mk_is_Some _ _ E)) as [? H].
    congruence.
Qed.

Lemma get_budget_status_ignores_expenses_witness :
  let row :=
    BudgetAllocationTable.mk 1 7 (Some 50%float) (Some 20%float)
      (Some 0%float) (Some 0%float) (Some 0%float) (Some 0%float)
      (Some 5%float) in
  let db := mkDatabase [] [] [] [row] in
  let lunch := ExpenseCreate.mk 60 5 0 0 0 0 0 (Date 2024 2 29) in
  get_budget_status 7 (snd (create_expense (fun _ => "groceries") lunch 7 db))
  = get_budget_status 7 db.
Proof.
  intros row db lunch.
  apply (get_budget_status_ignores_expenses 7 db). reflexivity.
Defined.

Lemma NoDup_map_inj {A : Type} (f : A -> Z) (l : list A) (a b : A) :
  List.NoDup (map f l) -> In a l -> In b l -> f a = f b -> a = b.
Proof.
  induction l as [|x l IH]; simpl; [tauto|].
  intros Hnd Ha Hb Hf. inversion Hnd as [|? ? Hx Hl]; subst.
  destruct Ha as [->|Ha], Hb as [->|Hb]; auto.
  - exfalso. apply Hx. rewrite Hf. now apply in_map.
  - exfalso. apply Hx. rewrite <- Hf. now apply in_map.
Qed.

(** X14. With distinct primary keys in the allocation table, an allocation
    request of one user leaves the rows of every other user as they are. *)
Theorem allocate_budget_other_users (budget : BudgetAllocation.t)
    (user_id other : Z) (db : Database) :
  List.NoDup (map BudgetAllocationTable.id (budget_allocation db)) ->
  other <> user_id ->
  allocations_of other (snd (allocate_budget budget user_id db))
  = allocations_of other db.
Proof.
  intros Hkeys Hne. unfold allocate_budget.
  destruct (existsb _ _); [reflexivity|].
  destruct (head (allocations_of user_id db)) as [existing|] eqn:E; cbn [snd].
  - rewrite allocations_of_update, setattr_all.
    assert (Hex : In existing (allocations_of user_id db)).
    { destruct (allocations_of user_id db); [discriminate|].
      injection E as ->. now left. }
    apply filter_In in Hex. destruct Hex as [Hex Hu].
    unfold update_allocation.
    rewrite <- (map_id (allocations_of other db)) at 2.
    apply map_ext_in. intros r Hr.
    apply filter_In in Hr. destruct Hr as [Hr Ho]. cbn [BudgetAllocationTable.id].
    destruct (Z.eqb_spec (BudgetAllocationTable.id r)
                (BudgetAllocationTable.id existing)) as [Hid|]; [|reflexivity].
    assert (r = existing) by (eapply NoDup_map_inj; eauto).
    subst r. lia.
  - unfold allocations_of; simpl. rewrite List.filter_app; simpl.
    destruct (Z.eqb_spec user_id other); [congruence|]. apply app_nil_r.
Qed.

Lemma allocate_budget_other_users_witness :
  let mine :=
    BudgetAllocationTable.mk 1 7 (Some 50%float) (Some 20%float) None None
      None None (Some 5%float) in
  let theirs :=
    BudgetAllocationTable.mk 2 8 (Some 1%float) None None None None None
      None in
  let db := mkDatabase [] [] [] [mine; theirs] in
  let budget :=
    BudgetAllocation.mk (Some 30%float) None None None None None None in
  allocations_of 8 (snd (allocate_budget budget 7 db)) = [theirs]
  /\ allocations_of 7 (snd (allocate_budget budget 7 db))
     = [BudgetAllocationTable.mk 1 7 (Some 30%float) None None None None None
          None].
Proof.
  intros mine theirs db budget. split; [|reflexivity].
  rewrite (allocate_budget_other_users budget 7 8 db); [reflexivity| |lia].
  simpl. repeat constructor; simpl; intuition lia.
Defined.

(** ** Categories, further *)

(** X15. The listing answers 500 exactly when the category table holds a
    predefined row (NULL owner), whoever asks; otherwise it returns the
    categories of the user, in table order, each as {id, name, user_id}. *)
Theorem get_user_categories_outcome (validation_error : string)
    (user_id : Z) (db : Database) :
  get_user_categories validation_error user_id db
  = if existsb
         (fun c =>
            match Expensecategory.user_id c with
            | Some _ => false
            | None => true
            end)
         (expense_category db)
    then
      HTTPException 500 ("Error fetching categories: " ++ validation_error)%string
    else
      Returned
        (map (fun c =>
                ExpenseCategoryResponse.mk (Expensecategory.id c)
                  (Expensecategory.name c) user_id)
             (List.filter
                (fun c =>
                   match Expensecategory.user_id c with
                   | Some u => u =? user_id
                   | None => false
                   end)
                (expense_category db))).
Proof.
  destruct (existsb _ _) eqn:E.
  - apply existsb_exists in E. destruct E as (c & Hc & Hnull).
    apply (get_user_categories_predefined_fails _ _ _ c Hc).
    now destruct (Expensecategory.user_id c).
  - apply get_user_categories_owned. intros c Hc Hnull.
    assert (Hex : existsb
                    (fun c =>
                       match Expensecategory.user_id c with
                       | Some _ => false
                       | None => true
                       end)
                    (expense_category db) = true).
    { apply existsb_exists. exists c. split; [exact Hc|]. now rewrite Hnull. }
    congruence.
Qed.



Lemma serve_no_predefined json_dumps (rq : request) (db : Database) :
  (forall c, In c (expense_category db) -> Expensecategory.user_id c <> None) ->
  forall c,
    In c (expense_category (serve json_dumps rq db)) ->
    Expensecategory.user_id c <> None.
Proof.
  intros Howned. destruct rq as [budget v|expense v|v n|amount v]; simpl.
  - now rewrite allocate_budget_expense_category.
  - now destruct (create_expense_other_tables json_dumps expense v db) as [-> _].
  - unfold add_category.
    destruct (head (categories_matching v n db)); [exact Howned|].
    simpl. intros c Hc. apply in_app_or in Hc.
    destruct Hc as [Hc|[<-|[]]]; [now apply Howned | discriminate].
  - now destruct (update_balance_other_tables amount v db) as [-> _].
Qed.

Lemma serve_all_no_predefined json_dumps (rqs : list request) (db : Database) :
  (forall c, In c (expense_category db) -> Expensecategory.user_id c <> None) ->
  forall c,
    In c (expense_category (serve_all json_dumps rqs db)) ->
    Expensecategory.user_id c <> None.
Proof.
  revert db. induction rqs as [|rq rqs IH]; intros db Hdb; [exact Hdb|].
  simpl. apply IH. now apply serve_no_predefined.
Qed.

(** X17. No request creates a predefined category: over a store reached
    from an empty category table the listing never fails, and it returns
    the categories the user has added. *)
Theorem served_categories_listed json_dumps (validation_error : string)
    (rqs : list request) (user_id : Z) (registered : list User.t)
    (recorded : list Expense.t) (allocated : list BudgetAllocationTable.t) :
  exists listing,
    get_user_categories validation_error user_id
      (serve_all json_dumps rqs (mkDatabase registered [] recorded allocated))
    = Returned listing
    /\ Forall (fun c => ExpenseCategoryResponse.user_id c = user_id) listing.
Proof.
  eexists. split.
  - apply get_user_categories_owned, serve_all_no_predefined.
    intros c [].
  - apply List.Forall_forall. intros c Hc.
    apply in_map_iff in Hc. now destruct Hc as (? & <- & _).
Qed.

(** ** Missing users *)



(** ** Accounts and tokens *)

Lemma find_append {A : Type} (f : A -> bool) (l k : list A) :
  find f (l ++ k)
  = match find f l with
    | Some x => Some x
    | None => find f k
    end.
Proof.
  induction l as [|x l IH]; [reflexivity|]. simpl.
  now destruct (f x).
Qed.

(** X19. Registering a name and an e-mail no user has yet (the unique
    indexes of the engine refuse a taken one) appends one user row that
    holds the hash of the password, not the password, and a balance of
    0.0; its key is new, and [get_balance] of the new user answers 0.0. *)
Theorem register_user_new_account (pwd_hash : string -> string)
    (user : UserCreate.t) (db : Database) :
  (forall old,
      In old (users db) ->
      User.username old <> UserCreate.username user
      /\ User.email old <> UserCreate.email user) ->
  exists db_user,
    register_user pwd_hash user db
    = (Returned db_user, with_users db (users db ++ [db_user]))
    /\ User.username db_user = UserCreate.username user
    /\ User.email db_user = UserCreate.email user
    /\ User.password db_user = pwd_hash (UserCreate.password user)
    /\ (forall old, In old (users db) -> User.id old <> User.id db_user)
    /\ get_balance (User.id db_user) (snd (register_user pwd_hash user db))
       = Returned 0%float.
Proof.
  intros _. eexists. split; [reflexivity|].
  do 3 (split; [reflexivity|]).
  assert (Hnew : forall old, In old (users db) ->
                   User.id old <> next_id (map User.id (users db))).
  { intros old Hold Hid.
    apply (next_id_not_in (map User.id (users db))).
    rewrite <- Hid. now apply in_map. }
  split; [exact Hnew|].
  unfold get_balance, query_user, register_user.
  cbn [snd users with_users]. rewrite find_append.
  destruct (find _ (users db)) as [old|] eqn:E.
  - apply find_some in E. destruct E as [Hold Hid].
    apply Z.eqb_eq in Hid. now apply Hnew in Hid.
  - simpl. now rewrite Z.eqb_refl.
Qed.

Lemma register_user_new_account_witness :
  let ann := User.mk 1 "ann" "ann@example.org" "$2b$12$hash" 100%float in
  let db := mkDatabase [ann] [] [] [] in
  let bob := UserCreate.mk "bob" "bob@example.org" "secret" in
  let hash := fun p => ("$2b$12$" ++ p)%string in
  register_user hash bob db
  = (Returned (User.mk 2 "bob" "bob@example.org" "$2b$12$secret" 0%float),
     mkDatabase
       [ann; User.mk 2 "bob" "bob@example.org" "$2b$12$secret" 0%float]
       [] [] []).
Proof.
  intros ann db bob hash.
  destruct (register_user_new_account hash bob db) as (u & Hrun & _).
  - intros old [<-|[]]. split; discriminate.
  - reflexivity.
Defined.

(** X20. After a registration under a new e-mail, a login with that e-mail
    and a password the hash verifies returns a bearer token whose claims
    are the e-mail as subject and an expiry 60 minutes after the login; a
    password the hash does not verify gets 401. *)
Theorem register_then_login (pwd_hash : string -> string)
    (pwd_verify : string -> string -> bool)
    (jwt_encode : gmap string claim -> string)
    (user : UserCreate.t) (password : string) (utcnow : Z) (db : Database) :
  (forall old,
      In old (users db) ->
      User.username old <> UserCreate.username user
      /\ User.email old <> UserCreate.email user) ->
  login_user pwd_verify jwt_encode
    (UserLogin.mk (UserCreate.email user) password) utcnow
    (snd (register_user pwd_hash user db))
  = if pwd_verify password (pwd_hash (UserCreate.password user))
    then
      Returned
        (mkToken
           (jwt_encode
              (<["exp" := ClaimTime (utcnow + minutes ACCESS_TOKEN_EXPIRE_MINUTES)]>
                 {["sub" := ClaimStr (UserCreate.email user)]}))
           "bearer")
    else HTTPException 401 "Incorrect username or password".
Proof.
  intros Hnew. unfold login_user, register_user.
  cbn [snd users with_users UserLogin.email UserLogin.password].
  rewrite find_append.
  destruct (find _ (users db)) as [old|] eqn:E.
  - apply find_some in E. destruct E as [Hold Hmail].
    apply String.eqb_eq in Hmail. now destruct (Hnew old Hold).
  - simpl. rewrite String.eqb_refl. unfold verify_password.
    destruct (pwd_verify password _); reflexivity.
Qed.

Lemma register_then_login_witness :
  let ann := User.mk 1 "ann" "ann@example.org" "$2b$12$hash" 100%float in
  let db := mkDatabase [ann] [] [] [] in
  let bob := UserCreate.mk "bob" "bob@example.org" "secret" in
  let hash := fun p => ("$2b$12$" ++ p)%string in
  let verify := fun plain hashed => String.eqb hashed (hash plain) in
  let encode := fun _ : gmap string claim => "header.claims.signature" in
  let db' := snd (register_user hash bob db) in
  login_user verify encode (UserLogin.mk "bob@example.org" "secret") 0 db'
  = Returned (mkToken "header.claims.signature" "bearer")
  /\ login_user verify encode (UserLogin.mk "bob@example.org" "guess") 0 db'
     = HTTPException 401 "Incorrect username or password".
Proof.
  intros ann db bob hash verify encode db'.
  assert (Hnew : forall old, In old (users db) ->
                   User.username old <> UserCreate.username bob
                   /\ User.email old <> UserCreate.email bob).
  { intros old [<-|[]]. split; discriminate. }
  split.
  - exact (register_then_login hash verify encode bob "secret" 0 db Hnew).
  - exact (register_then_login hash verify encode bob "guess" 0 db Hnew).
Defined.

(** X21. The token of a successful login is a bearer token that
    [get_current_user] lets through when the token library decodes it to
    the claims it was made of (as it does for an unexpired token under the
    same secret): the expiry added to the claims leaves the subject in
    place, and the subject read back is the e-mail of the login. *)
Theorem login_token_accepted (pwd_verify : string -> string -> bool)
    (jwt_encode : gmap string claim -> string)
    (jwt_decode : string -> option (gmap string claim))
    (user : UserLogin.t) (utcnow : Z) (db : Database) (token : Token) :
  login_user pwd_verify jwt_encode user utcnow db = Returned token ->
  jwt_decode (access_token token)
  = Some (<["exp" := ClaimTime (utcnow + minutes ACCESS_TOKEN_EXPIRE_MINUTES)]>
            {["sub" := ClaimStr (UserLogin.email user)]}) ->
  token_type token = "bearer"
  /\ decode_token jwt_decode (access_token token)
     = Some (ClaimStr (UserLogin.email user))
  /\ get_current_user jwt_decode (access_token token) = Returned tt.
Proof.
  intros Hlogin Hdecode.
  assert (Hsub : decode_token jwt_decode (access_token token)
                 = Some (ClaimStr (UserLogin.email user))).
  { unfold decode_token. rewrite Hdecode.
    rewrite lookup_insert_ne by discriminate. apply lookup_singleton_eq. }
  split; [|split; [exact Hsub|unfold get_current_user; now rewrite Hsub]].
  unfold login_user in Hlogin.
  destruct (find _ (users db)); [|discriminate].
  destruct (negb _); [discriminate|]. now injection Hlogin as <-.
Qed.

Lemma login_token_accepted_witness :
  let ann := User.mk 1 "ann" "ann@example.org" "$2b$12$hash" 100%float in
  let db := mkDatabase [ann] [] [] [] in
  let verify := fun plain hashed : string => String.eqb hashed "$2b$12$hash" in
  let encode := fun _ : gmap string claim => "header.claims.signature" in
  let decode :=
    fun _ : string =>
      Some (<["exp" := ClaimTime (minutes 60)]>
              ({["sub" := ClaimStr "ann@example.org"]} : gmap string claim)) in
  get_current_user decode "header.claims.signature" = Returned tt.
Proof.
  intros ann db verify encode decode.
  apply (login_token_accepted verify encode decode
           (UserLogin.mk "ann@example.org" "pw") 0 db
           (mkToken "header.claims.signature" "bearer")); reflexivity.
Defined.
